(** * neurokit2.eog.eog_clean: dispatch of the EOG cleaning presets

    A shallow embedding of [src/neurokit2/eog/eog_clean.py].  The module
    converts its input with [as_vector], lowers the method string and
    forwards to one of two filter presets; a third preset is defined but
    never called.  The collaborators that live outside the file
    ([as_vector], [signal_filter], the optional [mne] package) are section
    variables; every call made on the way is recorded in a call trace, so
    that statements such as "applies the filter exactly once" or "the check
    is only performed on the mne path" can be read off the trace. *)

From Stdlib Require Import List String Ascii Bool Arith ZArith QArith Lia.
Import ListNotations.

Local Open Scope string_scope.
Local Open Scope list_scope.

(** ** Python values used by the module *)

(** Python numbers as they are written in the source: [10] is an int,
    [1.5] and [0.5] are floats (both exactly representable). *)
Inductive number : Type :=
| Int (n : Z)
| Float (q : Q).

(** The dense one-dimensional vector [as_vector] produces.  The wrapper
    never computes on samples, it only passes them on. *)
Definition vector : Type := list Q.

(** Exception classes that occur in the module; [ModuleNotFoundError] is
    the subclass of [ImportError] a failed [import] raises. *)
Inductive exn_class : Type :=
| ValueError
| ImportError
| ModuleNotFoundError
| OtherError (name : string).

(** An exception value: its class and its [args] tuple. *)
Record exn : Type := Exception {
  exn_kind : exn_class;
  exn_args : list string
}.

(** [except ImportError] catches the class and its subclass. *)
Definition is_ImportError (e : exn) : bool :=
  match exn_kind e with
  | ImportError | ModuleNotFoundError => true
  | _ => false
  end.

(** ** String operations *)

Module Str.

(** [str.lower()] on the characters of a method name: the letters
    [A]..[Z] move to [a]..[z], every other character is kept.  A method
    string is a string of bytes here.  Python also lowers letters outside
    ASCII, but the only one it sends to an ASCII letter is the Kelvin sign
    (to [k]), and no selector contains a [k]: a string with a byte above
    127 is dispatched to the [else] branch by both. *)
Definition lower_char (c : ascii) : ascii :=
  let n := nat_of_ascii c in
  if (65 <=? n)%nat && (n <=? 90)%nat then ascii_of_nat (n + 32) else c.

Fixpoint lower (s : string) : string :=
  match s with
  | EmptyString => EmptyString
  | String c s' => String (lower_char c) (lower s')
  end.

(** [s in [a, b, ...]] for a list of strings. *)
Definition member (s : string) (l : list string) : bool :=
  existsb (String.eqb s) l.

(** [needle in hay] for two strings. *)
Fixpoint contains (needle hay : string) : bool :=
  if prefix needle hay then true
  else match hay with
       | EmptyString => false
       | String _ hay' => contains needle hay'
       end.

End Str.

(** ** Keyword arguments of the two filter primitives *)

(** [signal_filter(signal, sampling_rate=, method=, order=, lowcut=, highcut=)] *)
Record signal_filter_args : Type := SignalFilterArgs {
  sf_signal : vector;
  sf_sampling_rate : number;
  sf_method : string;
  sf_order : Z;
  sf_lowcut : option number;
  sf_highcut : option number
}.

(** [mne.filter.filter_data(data, sfreq, l_freq=, h_freq=, ...)] *)
Record filter_data_args : Type := FilterDataArgs {
  fd_data : vector;
  fd_sfreq : number;
  fd_l_freq : number;
  fd_h_freq : number;
  fd_filter_length : string;
  fd_l_trans_bandwidth : number;
  fd_h_trans_bandwidth : number;
  fd_phase : string;
  fd_fir_window : string;
  fd_fir_design : string;
  fd_verbose : bool
}.

(** What [import mne] binds when the package is installed. *)
Record mne_module : Type := MneModule {
  filter_data : filter_data_args -> exn + vector
}.

(** The private functions of the module. *)
Inductive func : Type :=
| F_eog_clean_agarwal2019
| F_eog_clean_brainstorm
| F_eog_clean_mne.

(** ** Call trace and the error monad *)

Section Trace.

Variable Raw : Type.

(** One entry per call or import performed, in program order. *)
Inductive event : Type :=
| EvImport (module : string)
| EvAsVector (x : Raw)
| EvLower (s : string)
| EvEnter (f : func)
| EvSignalFilter (a : signal_filter_args)
| EvFilterData (a : filter_data_args).

Inductive outcome (A : Type) : Type :=
| Returned (a : A)
| Raised (e : exn).

(** A computation yields an outcome and the trace of what it called. *)
Definition M (A : Type) : Type := (outcome A * list event)%type.

Definition ret {A} (a : A) : M A := (Returned A a, []).

Definition raise {A} (e : exn) : M A := (Raised A e, []).

Definition bind {A B} (m : M A) (k : A -> M B) : M B :=
  match m with
  | (Returned _ a, t) => let (r, t') := k a in (r, t ++ t')
  | (Raised _ e, t) => (Raised B e, t)
  end.

(** What a collaborator hands back: its value, or the exception it raised. *)
Definition of_sum {A} (r : exn + A) : outcome A :=
  match r with
  | inl e => Raised A e
  | inr a => Returned A a
  end.

(** A call to a collaborator: logged, then its result or exception. *)
Definition call {A} (ev : event) (r : exn + A) : M A := (of_sum r, [ev]).

Definition emit (ev : event) : M unit := (Returned unit tt, [ev]).

(** [try: body except <caught>: handler] *)
Definition try_except {A} (body : M A) (caught : exn -> bool)
           (handler : M A) : M A :=
  match body with
  | (Returned _ a, t) => (Returned A a, t)
  | (Raised _ e, t) =>
      if caught e then let (r, t') := handler in (r, t ++ t')
      else (Raised A e, t)
  end.

Definition result {A} (m : M A) : outcome A := fst m.
Definition trace {A} (m : M A) : list event := snd m.

End Trace.

Arguments EvImport {Raw} module.
Arguments EvAsVector {Raw} x.
Arguments EvLower {Raw} s.
Arguments EvEnter {Raw} f.
Arguments EvSignalFilter {Raw} a.
Arguments EvFilterData {Raw} a.
Arguments Returned {A} a.
Arguments Raised {A} e.
Arguments ret {Raw A} a.
Arguments raise {Raw A} e.
Arguments bind {Raw A B} m k.
Arguments of_sum {A} r.
Arguments call {Raw A} ev r.
Arguments emit {Raw} ev.
Arguments try_except {Raw A} body caught handler.
Arguments result {Raw A} m.
Arguments trace {Raw A} m.

Notation "x <- m ;; k" := (bind m (fun x => k))
  (at level 61, m at next level, right associativity).
Notation "m ;;; k" := (bind m (fun _ => k))
  (at level 61, right associativity).

(** ** The module *)

Section EogClean.

(** The raw input: a list, an array or a Series. *)
Variable Raw : Type.

(** [from ..misc import as_vector] *)
Variable as_vector : Raw -> exn + vector.

(** [from ..signal import signal_filter] *)
Variable signal_filter : signal_filter_args -> exn + vector.

(** The optional package: [None] when [import mne] fails. *)
Variable mne : option mne_module.

(** The imports executed when the module is loaded (lines 2-6). *)
Definition module_load : list (event Raw) :=
  [EvImport "pandas"; EvImport "numpy"; EvImport "..misc"; EvImport "..signal"].

Definition default_sampling_rate : number := Int 1000.
Definition default_method : string := "agarwal2019".

(** [import mne] *)
Definition import_mne : M Raw mne_module :=
  emit (EvImport "mne") ;;;
  match mne with
  | Some m => ret m
  | None => raise (Exception ModuleNotFoundError ["No module named 'mne'"])
  end.

Definition method_error : exn :=
  Exception ValueError
    [("NeuroKit error: eog_clean(): 'method' should be "
    ++ "one of 'agarwal2019', 'mne'.")%string].

Definition mne_missing_error : exn :=
  Exception ImportError
    ["NeuroKit error: signal_filter(): the 'mne' module is required for this method to run. ";
     "Please install it first (`pip install mne`)."].

Definition agarwal2019_args (eog_signal : vector) (sampling_rate : number)
  : signal_filter_args :=
  {| sf_signal := eog_signal;
     sf_sampling_rate := sampling_rate;
     sf_method := "butterworth";
     sf_order := 4;
     sf_lowcut := None;
     sf_highcut := Some (Int 10) |}.

Definition _eog_clean_agarwal2019 (eog_signal : vector)
           (sampling_rate : number) : M Raw vector :=
  emit (EvEnter F_eog_clean_agarwal2019) ;;;
  let a := agarwal2019_args eog_signal sampling_rate in
  call (EvSignalFilter a) (signal_filter a).

Definition brainstorm_args (eog_signal : vector) (sampling_rate : number)
  : signal_filter_args :=
  {| sf_signal := eog_signal;
     sf_sampling_rate := sampling_rate;
     sf_method := "butterworth";
     sf_order := 4;
     sf_lowcut := Some (Float (3 # 2));
     sf_highcut := Some (Int 15) |}.

Definition _eog_clean_brainstorm (eog_signal : vector)
           (sampling_rate : number) : M Raw vector :=
  emit (EvEnter F_eog_clean_brainstorm) ;;;
  let a := brainstorm_args eog_signal sampling_rate in
  call (EvSignalFilter a) (signal_filter a).

Definition mne_args (eog_signal : vector) (sampling_rate : number)
  : filter_data_args :=
  {| fd_data := eog_signal;
     fd_sfreq := sampling_rate;
     fd_l_freq := Int 1;
     fd_h_freq := Int 10;
     fd_filter_length := "10s";
     fd_l_trans_bandwidth := Float (1 # 2);
     fd_h_trans_bandwidth := Float (1 # 2);
     fd_phase := "zero-double";
     fd_fir_window := "hann";
     fd_fir_design := "firwin2";
     fd_verbose := false |}.

Definition _eog_clean_mne (eog_signal : vector)
           (sampling_rate : number) : M Raw vector :=
  emit (EvEnter F_eog_clean_mne) ;;;
  (* Make sure MNE is installed *)
  mne <- try_except import_mne is_ImportError (raise mne_missing_error) ;;
  (* Filter *)
  let a := mne_args eog_signal sampling_rate in
  clean <- call (EvFilterData a) (filter_data mne a) ;;
  ret clean.

Definition eog_clean (eog_signal : Raw) (sampling_rate : number)
           (method : string) : M Raw vector :=
  (* Sanitize input *)
  eog_signal <- call (EvAsVector eog_signal) (as_vector eog_signal) ;;
  (* Apply method *)
  method <- (emit (EvLower method) ;;; ret (Str.lower method)) ;;
  clean <-
    (if Str.member method ["agarwal"; "agarwal2019"] then
       _eog_clean_agarwal2019 eog_signal sampling_rate
     else if Str.member method ["mne"] then
       _eog_clean_mne eog_signal sampling_rate
     else
       raise method_error) ;;
  ret clean.

End EogClean.

Arguments module_load {Raw}.
Arguments import_mne {Raw} mne.
Arguments _eog_clean_agarwal2019 {Raw} signal_filter eog_signal sampling_rate.
Arguments _eog_clean_brainstorm {Raw} signal_filter eog_signal sampling_rate.
Arguments _eog_clean_mne {Raw} mne eog_signal sampling_rate.
Arguments eog_clean {Raw} as_vector signal_filter mne eog_signal sampling_rate method.

(** ** Vocabulary of the specification *)

(** The recognized selectors, as the specification lists them. *)
Definition recognized_methods : list string := ["agarwal"; "agarwal2019"; "mne"].

Definition recognized (method : string) : bool :=
  Str.member method recognized_methods.

(** Calls of a filter primitive in a trace. *)
Definition is_filter_call {Raw} (ev : event Raw) : bool :=
  match ev with
  | EvSignalFilter _ | EvFilterData _ => true
  | _ => false
  end.

Definition filter_calls {Raw} (t : list (event Raw)) : nat :=
  List.length (filter is_filter_call t).

(** Entries of a preset function in a trace. *)
Definition is_preset_entry {Raw} (ev : event Raw) : bool :=
  match ev with
  | EvEnter _ => true
  | _ => false
  end.

(** The availability check of the optional package. *)
Definition is_mne_import {Raw} (ev : event Raw) : bool :=
  match ev with
  | EvImport m => String.eqb m "mne"
  | _ => false
  end.

(** The method string being lowered. *)
Definition is_lower {Raw} (ev : event Raw) : bool :=
  match ev with
  | EvLower _ => true
  | _ => false
  end.

(** What the unused preset would leave in a trace: its entry, or a
    [signal_filter] call that carries a low cutoff (a band-pass). *)
Definition is_brainstorm {Raw} (ev : event Raw) : bool :=
  match ev with
  | EvEnter F_eog_clean_brainstorm => true
  | EvSignalFilter a =>
      match sf_lowcut a with
      | Some _ => true
      | None => false
      end
  | _ => false
  end.

(** The all-zero vector of length [n]. *)
Definition zeros (n : nat) : vector := repeat 0%Q n.

(** The contract the wrapper relies on: a filter primitive returns, and
    what it returns is as long as what it was given. *)
Definition signal_filter_keeps_length
  (signal_filter : signal_filter_args -> exn + vector) : Prop :=
  forall a, exists out,
    signal_filter a = inr out /\ List.length out = List.length (sf_signal a).

Definition filter_data_keeps_length (m : mne_module) : Prop :=
  forall a, exists out,
    filter_data m a = inr out /\ List.length out = List.length (fd_data a).

(** A linear filter sends the null signal to the null signal. *)
Definition signal_filter_zero_to_zero
  (signal_filter : signal_filter_args -> exn + vector) : Prop :=
  forall n rate family order lowcut highcut,
    signal_filter (SignalFilterArgs (zeros n) rate family order lowcut highcut)
    = inr (zeros n).

(** The four ways a call can go once the input has converted to [v]:
    each gives the outcome and the trace in full. *)
Inductive run_shape {Raw : Type}
          (signal_filter : signal_filter_args -> exn + vector)
          (mne : option mne_module)
          (raw : Raw) (v : vector) (rate : number) (method : string)
  : M Raw vector -> Prop :=
| ShapeAgarwal :
    Str.member (Str.lower method) ["agarwal"; "agarwal2019"] = true ->
    run_shape signal_filter mne raw v rate method
      (of_sum (signal_filter (agarwal2019_args v rate)),
       [EvAsVector raw; EvLower method; EvEnter F_eog_clean_agarwal2019;
        EvSignalFilter (agarwal2019_args v rate)])
| ShapeMne (m : mne_module) :
    Str.lower method = "mne" -> mne = Some m ->
    run_shape signal_filter mne raw v rate method
      (of_sum (filter_data m (mne_args v rate)),
       [EvAsVector raw; EvLower method; EvEnter F_eog_clean_mne;
        EvImport "mne"; EvFilterData (mne_args v rate)])
| ShapeMneMissing :
    Str.lower method = "mne" -> mne = None ->
    run_shape signal_filter mne raw v rate method
      (Raised mne_missing_error,
       [EvAsVector raw; EvLower method; EvEnter F_eog_clean_mne;
        EvImport "mne"])
| ShapeUnrecognized :
    recognized (Str.lower method) = false ->
    run_shape signal_filter mne raw v rate method
      (Raised method_error, [EvAsVector raw; EvLower method]).

(** ** A small concrete environment

    Stand-ins for the collaborators, used to run the module on concrete
    inputs: a raw input is a flat list or a table, only the former
    converts; both filters hand their input back. *)

Module Demo.

Inductive raw_input : Type :=
| RawList (xs : list Q)
| RawTable (rows : list (list Q)).

Definition not_a_vector : exn :=
  Exception ValueError ["not a one-dimensional vector"].

Definition as_vector (x : raw_input) : exn + vector :=
  match x with
  | RawList xs => inr xs
  | RawTable _ => inl not_a_vector
  end.

Definition signal_filter (a : signal_filter_args) : exn + vector :=
  inr (sf_signal a).

Definition mne : mne_module :=
  {| filter_data := fun a => inr (fd_data a) |}.

Definition ramp : raw_input := RawList [1%Q; 2%Q; 3%Q].

Definition table : raw_input := RawTable [[1%Q; 2%Q]; [3%Q; 4%Q]].

End Demo.

(** ** Further trace vocabulary and faulty collaborators *)

(** The conversion of the input. *)
Definition is_as_vector {Raw} (ev : event Raw) : bool :=
  match ev with
  | EvAsVector _ => true
  | _ => false
  end.

(** How many entries of a trace satisfy a test. *)
Definition occurrences {Raw} (p : event Raw -> bool) (t : list (event Raw))
  : nat :=
  List.length (filter p t).

(** Collaborators that raise, to run the error paths: a filter whose own
    import fails at call time, and a [signal_filter] that rejects its
    arguments. *)
Module Faulty.

Definition late_import_error : exn :=
  Exception ImportError ["cannot import name 'fftpack' from 'scipy'"].

Definition mne : mne_module :=
  {| filter_data := fun _ => inl late_import_error |}.

Definition bad_frequency : exn :=
  Exception ValueError
    ["Digital filter critical frequencies must be 0 < Wn < 1"].

Definition signal_filter (a : signal_filter_args) : exn + vector :=
  inl bad_frequency.

End Faulty.

(** ** Concrete runs *)

Example lower_mixed_case : Str.lower "AgArWaL-2019 Mne" = "agarwal-2019 mne".
Proof. reflexivity. Qed.

Example run_default_call :
  eog_clean Demo.as_vector Demo.signal_filter None Demo.ramp
    default_sampling_rate default_method
  = (Returned [1%Q; 2%Q; 3%Q],
     [EvAsVector Demo.ramp; EvLower "agarwal2019";
      EvEnter F_eog_clean_agarwal2019;
      EvSignalFilter
        (SignalFilterArgs [1%Q; 2%Q; 3%Q] (Int 1000) "butterworth" 4
           None (Some (Int 10)))]).
Proof. reflexivity. Qed.

Example run_brainstorm_selector :
  eog_clean Demo.as_vector Demo.signal_filter (Some Demo.mne) Demo.ramp
    default_sampling_rate "brainstorm"
  = (Raised method_error, [EvAsVector Demo.ramp; EvLower "brainstorm"]).
Proof. reflexivity. Qed.

Example run_mne_on_table :
  eog_clean Demo.as_vector Demo.signal_filter None Demo.table
    default_sampling_rate "mne"
  = (Raised Demo.not_a_vector, [EvAsVector Demo.table]).
Proof. reflexivity. Qed.

(** ** Facts about the string operations *)

Lemma lower_char_idempotent (c : ascii) :
  Str.lower_char (Str.lower_char c) = Str.lower_char c.
Proof.
  destruct c as [[] [] [] [] [] [] [] []]; reflexivity.
Qed.

Lemma lower_idempotent (s : string) : Str.lower (Str.lower s) = Str.lower s.
Proof.
  induction s as [|c s IH]; simpl.
  - reflexivity.
  - now rewrite lower_char_idempotent, IH.
Qed.

Lemma member_agarwal_iff (s : string) :
  Str.member s ["agarwal"; "agarwal2019"] = true
  <-> s = "agarwal" \/ s = "agarwal2019".
Proof.
  unfold Str.member; simpl.
  rewrite !orb_true_iff, !String.eqb_eq.
  intuition discriminate.
Qed.

Lemma member_mne_iff (s : string) :
  Str.member s ["mne"] = true <-> s = "mne".
Proof.
  unfold Str.member; simpl.
  rewrite orb_true_iff, String.eqb_eq.
  intuition discriminate.
Qed.

Lemma recognized_split (s : string) :
  recognized s
  = Str.member s ["agarwal"; "agarwal2019"] || Str.member s ["mne"].
Proof.
  unfold recognized, recognized_methods, Str.member; simpl.
  destruct (String.eqb s "agarwal"), (String.eqb s "agarwal2019"),
    (String.eqb s "mne"); reflexivity.
Qed.

Lemma agarwal_not_mne (s : string) :
  Str.member s ["agarwal"; "agarwal2019"] = true ->
  Str.member s ["mne"] = false.
Proof.
  intros H. apply member_agarwal_iff in H.
  destruct H as [-> | ->]; reflexivity.
Qed.

(** ** The four ways a call can go *)

Ltac step_monad :=
  cbv beta iota zeta
      delta [eog_clean _eog_clean_agarwal2019 _eog_clean_mne import_mne
             call bind emit ret raise try_except of_sum app].

Section Runs.

Variable Raw : Type.
Variable as_vector : Raw -> exn + vector.
Variable signal_filter : signal_filter_args -> exn + vector.
Variable mne : option mne_module.

Variables (raw : Raw) (rate : number) (method : string).

Lemma run_unconvertible (e : exn) :
  as_vector raw = inl e ->
  eog_clean as_vector signal_filter mne raw rate method
  = (Raised e, [EvAsVector raw]).
Proof.
  intros H. unfold eog_clean, call. rewrite H. reflexivity.
Qed.

Lemma run_agarwal (v : vector) :
  as_vector raw = inr v ->
  Str.member (Str.lower method) ["agarwal"; "agarwal2019"] = true ->
  eog_clean as_vector signal_filter mne raw rate method
  = (of_sum (signal_filter (agarwal2019_args v rate)),
     [EvAsVector raw; EvLower method; EvEnter F_eog_clean_agarwal2019;
      EvSignalFilter (agarwal2019_args v rate)]).
Proof.
  intros Hv Hm. unfold eog_clean, call. rewrite Hv. step_monad.
  rewrite Hm. step_monad.
  destruct (signal_filter (agarwal2019_args v rate)); reflexivity.
Qed.

Lemma run_mne_present (v : vector) (m : mne_module) :
  as_vector raw = inr v ->
  Str.lower method = "mne" ->
  mne = Some m ->
  eog_clean as_vector signal_filter mne raw rate method
  = (of_sum (filter_data m (mne_args v rate)),
     [EvAsVector raw; EvLower method; EvEnter F_eog_clean_mne;
      EvImport "mne"; EvFilterData (mne_args v rate)]).
Proof.
  intros Hv Hm Hp. unfold eog_clean, call. rewrite Hv. step_monad.
  rewrite Hm, Hp. cbn.
  destruct (filter_data m (mne_args v rate)); reflexivity.
Qed.

Lemma run_mne_absent (v : vector) :
  as_vector raw = inr v ->
  Str.lower method = "mne" ->
  mne = None ->
  eog_clean as_vector signal_filter mne raw rate method
  = (Raised mne_missing_error,
     [EvAsVector raw; EvLower method; EvEnter F_eog_clean_mne;
      EvImport "mne"]).
Proof.
  intros Hv Hm Hp. unfold eog_clean, call. rewrite Hv. step_monad.
  rewrite Hm, Hp. reflexivity.
Qed.

Lemma run_unrecognized (v : vector) :
  as_vector raw = inr v ->
  recognized (Str.lower method) = false ->
  eog_clean as_vector signal_filter mne raw rate method
  = (Raised method_error, [EvAsVector raw; EvLower method]).
Proof.
  intros Hv Hm. rewrite recognized_split in Hm.
  apply orb_false_iff in Hm. destruct Hm as [Ha Hb].
  unfold eog_clean, call. rewrite Hv. step_monad. rewrite Ha, Hb.
  reflexivity.
Qed.

Lemma run_cases (v : vector) :
  as_vector raw = inr v ->
  run_shape signal_filter mne raw v rate method
    (eog_clean as_vector signal_filter mne raw rate method).
Proof.
  intros Hv.
  destruct (recognized (Str.lower method)) eqn:Hr.
  - rewrite recognized_split in Hr. apply orb_true_iff in Hr.
    destruct Hr as [Ha | Hm].
    + rewrite run_agarwal with (v := v) by assumption. now constructor.
    + apply member_mne_iff in Hm.
      assert (Hp : (exists m, mne = Some m) \/ mne = None)
        by (destruct mne; eauto).
      destruct Hp as [[m Hp] | Hp].
      * rewrite run_mne_present with (v := v) (m := m) by trivial.
        now apply ShapeMne.
      * rewrite run_mne_absent with (v := v) by trivial.
        now apply ShapeMneMissing.
  - rewrite run_unrecognized with (v := v) by assumption. now constructor.
Qed.

End Runs.

Arguments run_cases {Raw} as_vector signal_filter mne raw rate method v _.

(** ** Unrecognized selectors *)

Section MethodError.

Context {Raw : Type} (as_vector : Raw -> exn + vector)
        (signal_filter : signal_filter_args -> exn + vector)
        (mne : option mne_module).

(** C1.  For a signal that [as_vector] converts, [eog_clean] ends at its
    own [raise ValueError] (the method error, with nothing but the
    conversion and the lowering in the trace) exactly when the lowered
    method is outside {agarwal, agarwal2019, mne}.  The message lists
    both valid options; on that path no preset is entered, no filter is
    called and no value is returned. *)
Theorem unrecognized_method_raises (raw : Raw) (v : vector) (rate : number)
        (method : string) :
  as_vector raw = inr v ->
  (recognized (Str.lower method) = false <->
   eog_clean as_vector signal_filter mne raw rate method
   = (Raised method_error, [EvAsVector raw; EvLower method]))
  /\ exn_kind method_error = ValueError
  /\ (exists msg, exn_args method_error = [msg]
                  /\ Str.contains "'agarwal2019'" msg = true
                  /\ Str.contains "'mne'" msg = true)
  /\ (recognized (Str.lower method) = false ->
      let run := eog_clean as_vector signal_filter mne raw rate method in
      existsb is_preset_entry (trace run) = false
      /\ filter_calls (trace run) = 0%nat
      /\ forall out, result run <> Returned out).
Proof.
  intros Hv. repeat split.
  - intros Hr. now apply run_unrecognized with (v := v).
  - intros Hrun.
    destruct (recognized (Str.lower method)) eqn:Hr; [exfalso | reflexivity].
    pose proof (run_cases as_vector signal_filter mne raw rate method v Hv)
      as Hshape.
    rewrite Hrun in Hshape. inversion Hshape; congruence.
  - eexists. repeat split; reflexivity.
  - rewrite run_unrecognized with (v := v) by assumption. reflexivity.
  - rewrite run_unrecognized with (v := v) by assumption. reflexivity.
  - rewrite run_unrecognized with (v := v) by assumption. discriminate.
Qed.

End MethodError.

(** The selector [foo] on a three-sample list. *)
Lemma unrecognized_method_raises_witness :
  Demo.as_vector Demo.ramp = inr [1%Q; 2%Q; 3%Q]
  /\ eog_clean Demo.as_vector Demo.signal_filter (Some Demo.mne)
       Demo.ramp default_sampling_rate "foo"
     = (Raised method_error, [EvAsVector Demo.ramp; EvLower "foo"]).
Proof.
  split; [reflexivity |].
  apply (unrecognized_method_raises Demo.as_vector Demo.signal_filter
           (Some Demo.mne) Demo.ramp [1%Q; 2%Q; 3%Q] default_sampling_rate
           "foo"
           eq_refl).
  reflexivity.
Defined.

(** ** The two presets *)

Section Presets.

Context {Raw : Type} (as_vector : Raw -> exn + vector)
        (signal_filter : signal_filter_args -> exn + vector)
        (mne : option mne_module).

(** C2.  With the selector [agarwal2019] or [agarwal] (in any case) and a
    signal that converts to [v], [signal_filter] is called exactly once, on
    [v] and the given sampling rate, with method butterworth, order 4,
    no low cutoff and a high cutoff of 10; what that call returns or
    raises is the outcome of [eog_clean]. *)
Theorem agarwal2019_preset (raw : Raw) (v : vector) (rate : number)
        (method : string) :
  as_vector raw = inr v ->
  Str.lower method = "agarwal2019" \/ Str.lower method = "agarwal" ->
  let a := SignalFilterArgs v rate "butterworth" 4 None (Some (Int 10)) in
  let run := eog_clean as_vector signal_filter mne raw rate method in
  result run = of_sum (signal_filter a)
  /\ trace run = [EvAsVector raw; EvLower method;
                  EvEnter F_eog_clean_agarwal2019; EvSignalFilter a]
  /\ filter_calls (trace run) = 1%nat.
Proof.
  intros Hv Hm a run.
  assert (Ha : Str.member (Str.lower method) ["agarwal"; "agarwal2019"] = true)
    by (apply member_agarwal_iff; tauto).
  subst run. rewrite run_agarwal with (v := v) by assumption.
  repeat split.
Qed.

(** C3.  With the selector [mne] (in any case), the package installed and
    a signal that converts to [v], [mne.filter.filter_data] is called
    exactly once, on [v] and the sampling rate, with cutoffs 1 and 10, a
    filter length of 10 seconds, transition bandwidths 0.5 and 0.5, phase
    zero-double, a Hann window and the firwin2 design; what that call
    returns or raises is the outcome of [eog_clean], and [signal_filter]
    is not called. *)
Theorem mne_preset (raw : Raw) (v : vector) (rate : number)
        (method : string) (m : mne_module) :
  as_vector raw = inr v ->
  Str.lower method = "mne" ->
  mne = Some m ->
  let a := FilterDataArgs v rate (Int 1) (Int 10) "10s"
             (Float (1 # 2)) (Float (1 # 2))
             "zero-double" "hann" "firwin2" false in
  let run := eog_clean as_vector signal_filter mne raw rate method in
  result run = of_sum (filter_data m a)
  /\ trace run = [EvAsVector raw; EvLower method; EvEnter F_eog_clean_mne;
                  EvImport "mne"; EvFilterData a]
  /\ filter_calls (trace run) = 1%nat.
Proof.
  intros Hv Hm Hp a run.
  subst run. rewrite run_mne_present with (v := v) (m := m) by assumption.
  repeat split.
Qed.

End Presets.

Lemma agarwal2019_preset_witness :
  Demo.as_vector Demo.ramp = inr [1%Q; 2%Q; 3%Q]
  /\ (Str.lower "Agarwal2019" = "agarwal2019"
      \/ Str.lower "Agarwal2019" = "agarwal")
  /\ trace (eog_clean Demo.as_vector Demo.signal_filter None
              Demo.ramp (Int 100) "Agarwal2019")
     = [EvAsVector Demo.ramp; EvLower "Agarwal2019";
        EvEnter F_eog_clean_agarwal2019;
        EvSignalFilter
          (SignalFilterArgs [1%Q; 2%Q; 3%Q] (Int 100) "butterworth" 4
             None (Some (Int 10)))].
Proof.
  split; [reflexivity |]. split; [left; reflexivity |].
  apply (agarwal2019_preset Demo.as_vector Demo.signal_filter None
           Demo.ramp [1%Q; 2%Q; 3%Q] (Int 100) "Agarwal2019"
           eq_refl (or_introl eq_refl)).
Defined.

Lemma mne_preset_witness :
  Demo.as_vector Demo.ramp = inr [1%Q; 2%Q; 3%Q]
  /\ Str.lower "MNE" = "mne"
  /\ result (eog_clean Demo.as_vector Demo.signal_filter (Some Demo.mne)
               Demo.ramp (Int 100) "MNE")
     = Returned [1%Q; 2%Q; 3%Q].
Proof.
  split; [reflexivity |]. split; [reflexivity |].
  apply (mne_preset Demo.as_vector Demo.signal_filter (Some Demo.mne)
           Demo.ramp [1%Q; 2%Q; 3%Q] (Int 100) "MNE" Demo.mne
           eq_refl eq_refl eq_refl).
Defined.

(** ** The optional dependency *)

Section Dependency.

Context {Raw : Type} (as_vector : Raw -> exn + vector)
        (signal_filter : signal_filter_args -> exn + vector)
        (mne : option mne_module).

(** C4.  For a signal that converts, [eog_clean] ends at the
    [raise ImportError] of the mne preset exactly when the lowered method
    is [mne] and the package is absent.  The error names the 'mne' module
    and tells the caller to install it.  [import mne] is executed inside
    the call exactly when the lowered method is [mne], and it is not among
    the imports of module load. *)
Theorem mne_missing_dependency (raw : Raw) (v : vector) (rate : number)
        (method : string) :
  as_vector raw = inr v ->
  let run := eog_clean as_vector signal_filter mne raw rate method in
  (Str.lower method = "mne" /\ mne = None <->
   run = (Raised mne_missing_error,
          [EvAsVector raw; EvLower method; EvEnter F_eog_clean_mne;
           EvImport "mne"]))
  /\ (existsb is_mne_import (trace run) = true <-> Str.lower method = "mne")
  /\ existsb is_mne_import (@module_load Raw) = false
  /\ exn_kind mne_missing_error = ImportError
  /\ Str.contains "'mne'" (concat "" (exn_args mne_missing_error)) = true
  /\ Str.contains "Please install it" (concat "" (exn_args mne_missing_error))
     = true
  /\ Str.contains "pip install mne" (concat "" (exn_args mne_missing_error))
     = true.
Proof.
  intros Hv run.
  pose proof (run_cases as_vector signal_filter mne raw rate method v Hv)
    as Hshape.
  fold run in Hshape.
  split; [| split; [| repeat split]].
  - split.
    + intros [Hm Hp]. subst run.
      now rewrite run_mne_absent with (v := v).
    + intros Hrun. rewrite Hrun in Hshape.
      inversion Hshape; subst; auto.
  - destruct Hshape as [Ha | m Hm Hp | Hm Hp | Hr]; cbn.
    + split; [discriminate |]. intros Hm.
      rewrite Hm in Ha. discriminate Ha.
    + tauto.
    + tauto.
    + split; [discriminate |]. intros Hm.
      rewrite Hm in Hr. discriminate Hr.
Qed.

End Dependency.

Lemma mne_missing_dependency_witness :
  Demo.as_vector Demo.ramp = inr [1%Q; 2%Q; 3%Q]
  /\ eog_clean Demo.as_vector Demo.signal_filter None
       Demo.ramp (Int 100) "Mne"
     = (Raised mne_missing_error,
        [EvAsVector Demo.ramp; EvLower "Mne"; EvEnter F_eog_clean_mne;
         EvImport "mne"]).
Proof.
  split; [reflexivity |].
  apply (mne_missing_dependency Demo.as_vector Demo.signal_filter None
           Demo.ramp [1%Q; 2%Q; 3%Q] (Int 100) "Mne" eq_refl).
  split; reflexivity.
Defined.

(** ** Case-insensitive selection *)

Section CaseInsensitive.

Context {Raw : Type} (as_vector : Raw -> exn + vector)
        (signal_filter : signal_filter_args -> exn + vector)
        (mne : option mne_module).

(** Lowering the selector beforehand changes nothing but the argument
    logged for [lower]. *)
Lemma eog_clean_lower (raw : Raw) (rate : number) (method : string) :
  let run := eog_clean as_vector signal_filter mne raw rate method in
  let run' :=
    eog_clean as_vector signal_filter mne raw rate (Str.lower method) in
  result run = result run'
  /\ filter (fun ev => negb (is_lower ev)) (trace run)
     = filter (fun ev => negb (is_lower ev)) (trace run').
Proof.
  cbv zeta. unfold eog_clean, call.
  destruct (as_vector raw) as [e | v]; [split; reflexivity |].
  cbv beta iota zeta delta [bind emit ret of_sum app].
  rewrite lower_idempotent.
  set (k := if Str.member (Str.lower method) ["agarwal"; "agarwal2019"]
            then _ else _).
  destruct k as [[out | e] t]; split; reflexivity.
Qed.

(** C5.  [eog_clean x r m] and [eog_clean x r (m.lower())] have the same
    outcome (the same vector, or the same exception) and make the same
    collaborator calls, for every input, rate and method string; in
    particular for [AGARWAL2019] and [agarwal2019]. *)
Theorem method_case_insensitive (raw : Raw) (rate : number)
        (method : string) :
  result (eog_clean as_vector signal_filter mne raw rate method)
  = result (eog_clean as_vector signal_filter mne raw rate (Str.lower method))
  /\ filter (fun ev => negb (is_lower ev))
       (trace (eog_clean as_vector signal_filter mne raw rate method))
     = filter (fun ev => negb (is_lower ev))
         (trace (eog_clean as_vector signal_filter mne raw rate
                   (Str.lower method)))
  /\ result (eog_clean as_vector signal_filter mne raw rate "AGARWAL2019")
     = result (eog_clean as_vector signal_filter mne raw rate "agarwal2019").
Proof.
  destruct (eog_clean_lower raw rate method) as [Hres Htr].
  repeat split; [exact Hres | exact Htr |].
  exact (proj1 (eog_clean_lower raw rate "AGARWAL2019")).
Qed.

End CaseInsensitive.

(** ** Shape of the output *)

Section Output.

Context {Raw : Type} (as_vector : Raw -> exn + vector)
        (signal_filter : signal_filter_args -> exn + vector)
        (mne : option mne_module).

(** C6.  Let the input convert to [v] and the method be recognized.  If
    [signal_filter] returns a vector as long as the one it is given, and,
    when the method is [mne], the package is there and its filter does
    the same, then [eog_clean] returns a vector as long as [v]; the
    filter was handed [v] itself, so sample [i] of the output answers
    sample [i] of the input. *)
Theorem output_keeps_length (raw : Raw) (v : vector) (rate : number)
        (method : string) :
  as_vector raw = inr v ->
  recognized (Str.lower method) = true ->
  signal_filter_keeps_length signal_filter ->
  (Str.lower method = "mne" ->
   exists m, mne = Some m /\ filter_data_keeps_length m) ->
  let run := eog_clean as_vector signal_filter mne raw rate method in
  (exists out, result run = Returned out /\ List.length out = List.length v)
  /\ (forall a, In (EvSignalFilter a) (trace run) -> sf_signal a = v)
  /\ (forall a, In (EvFilterData a) (trace run) -> fd_data a = v).
Proof.
  intros Hv Hr Hsf Hfd run.
  pose proof (run_cases as_vector signal_filter mne raw rate method v Hv)
    as Hshape.
  fold run in Hshape.
  destruct Hshape as [Ha | m Hm Hp | Hm Hp | Hu].
  - destruct (Hsf (agarwal2019_args v rate)) as (out & Hout & Hlen).
    rewrite Hout. cbn. split; [eauto |].
    split; intros a Hin;
      repeat (destruct Hin as [Hin | Hin]; try discriminate Hin);
      try contradiction.
    now inversion Hin.
  - destruct (Hfd Hm) as (m' & Hp' & Hkeep).
    rewrite Hp in Hp'. inversion Hp'; subst m'.
    destruct (Hkeep (mne_args v rate)) as (out & Hout & Hlen).
    rewrite Hout. cbn. split; [eauto |].
    split; intros a Hin;
      repeat (destruct Hin as [Hin | Hin]; try discriminate Hin);
      try contradiction.
    now inversion Hin.
  - destruct (Hfd Hm) as (m' & Hp' & _). rewrite Hp in Hp'. discriminate Hp'.
  - rewrite Hr in Hu. discriminate Hu.
Qed.

(** C8.  If [signal_filter] sends the null signal to the null signal, then
    [eog_clean] with method [agarwal2019] on an input that converts to
    [N] zeros returns [N] zeros. *)
Theorem agarwal2019_null_signal (raw : Raw) (N : nat) (rate : number) :
  as_vector raw = inr (zeros N) ->
  signal_filter_zero_to_zero signal_filter ->
  let run := eog_clean as_vector signal_filter mne raw rate "agarwal2019" in
  result run = Returned (zeros N)
  /\ (exists out, result run = Returned out
                  /\ List.length out = N
                  /\ Forall (fun x => x = 0%Q) out).
Proof.
  intros Hv Hz run. subst run.
  rewrite run_agarwal with (v := zeros N) by (assumption || reflexivity).
  unfold agarwal2019_args. rewrite Hz. cbn.
  split; [reflexivity |].
  exists (zeros N). split; [reflexivity |]. unfold zeros.
  split; [apply repeat_length |].
  apply Forall_forall. intros x Hx. now apply repeat_spec in Hx.
Qed.

End Output.

Lemma pass_through_keeps_length :
  signal_filter_keeps_length Demo.signal_filter.
Proof.
  intros a. exists (sf_signal a). split; reflexivity.
Defined.

Lemma demo_mne_keeps_length : filter_data_keeps_length Demo.mne.
Proof.
  intros a. exists (fd_data a). split; reflexivity.
Defined.

Lemma output_keeps_length_witness :
  Demo.as_vector Demo.ramp = inr [1%Q; 2%Q; 3%Q]
  /\ recognized (Str.lower "MNE") = true
  /\ exists out,
       result (eog_clean Demo.as_vector Demo.signal_filter (Some Demo.mne)
                 Demo.ramp (Int 100) "MNE") = Returned out
       /\ List.length out = 3%nat.
Proof.
  split; [reflexivity |]. split; [reflexivity |].
  apply (output_keeps_length Demo.as_vector Demo.signal_filter
           (Some Demo.mne) Demo.ramp [1%Q; 2%Q; 3%Q] (Int 100) "MNE"
           eq_refl eq_refl pass_through_keeps_length
           (fun _ => ex_intro _ Demo.mne (conj eq_refl demo_mne_keeps_length))).
Defined.

Lemma pass_through_zero_to_zero :
  signal_filter_zero_to_zero Demo.signal_filter.
Proof.
  intros n rate family order lowcut highcut. reflexivity.
Defined.

Lemma agarwal2019_null_signal_witness :
  Demo.as_vector (Demo.RawList (zeros 4)) = inr (zeros 4)
  /\ result (eog_clean Demo.as_vector Demo.signal_filter None
               (Demo.RawList (zeros 4)) (Int 1000) "agarwal2019")
     = Returned [0%Q; 0%Q; 0%Q; 0%Q].
Proof.
  split; [reflexivity |].
  apply (agarwal2019_null_signal Demo.as_vector Demo.signal_filter None
           (Demo.RawList (zeros 4)) 4 (Int 1000) eq_refl
           pass_through_zero_to_zero).
Defined.

(** ** The unused preset *)

Section Brainstorm.

Context {Raw : Type} (as_vector : Raw -> exn + vector)
        (signal_filter : signal_filter_args -> exn + vector)
        (mne : option mne_module).

(** The detector is not blind: the preset, when run, leaves both marks. *)
Lemma brainstorm_leaves_marks (v : vector) (rate : number) :
  trace (@_eog_clean_brainstorm Raw signal_filter v rate)
  = [EvEnter F_eog_clean_brainstorm;
     EvSignalFilter
       (SignalFilterArgs v rate "butterworth" 4
          (Some (Float (3 # 2))) (Some (Int 15)))]
  /\ forallb is_brainstorm
       (trace (@_eog_clean_brainstorm Raw signal_filter v rate)) = true.
Proof.
  unfold _eog_clean_brainstorm, call, bind, emit.
  destruct (signal_filter (brainstorm_args v rate)); split; reflexivity.
Qed.

(** C7.  Whatever the input, the rate and the method string,
    [eog_clean] neither enters [_eog_clean_brainstorm] nor makes a
    band-pass call of [signal_filter]; the selector [brainstorm] itself
    is not recognized. *)
Theorem brainstorm_unreachable (raw : Raw) (rate : number)
        (method : string) :
  existsb is_brainstorm
    (trace (eog_clean as_vector signal_filter mne raw rate method)) = false
  /\ recognized (Str.lower "brainstorm") = false.
Proof.
  split; [| reflexivity].
  destruct (as_vector raw) as [e | v] eqn:Hv.
  - now rewrite run_unconvertible with (e := e).
  - destruct (run_cases as_vector signal_filter mne raw rate method v Hv);
      reflexivity.
Qed.

End Brainstorm.

(** ** Order of sanitization and dispatch *)

Section Sanitize.

Context {Raw : Type} (as_vector : Raw -> exn + vector)
        (signal_filter : signal_filter_args -> exn + vector)
        (mne : option mne_module).

(** C9.  The first thing [eog_clean] does is call [as_vector].  If that
    raises, the call ends there with that exception, whatever the method
    string, which is never lowered; if it succeeds, the method is lowered
    next.  So the method is lowered exactly when the conversion
    succeeded, and a call that ends at the method error had an input
    that converted. *)
Theorem sanitize_before_dispatch (raw : Raw) (rate : number)
        (method : string) :
  let run := eog_clean as_vector signal_filter mne raw rate method in
  match as_vector raw with
  | inl e => run = (Raised e, [EvAsVector raw])
  | inr _ => exists rest,
      trace run = EvAsVector raw :: EvLower method :: rest
  end
  /\ existsb is_lower (trace run)
     = match as_vector raw with inl _ => false | inr _ => true end
  /\ (trace run = [EvAsVector raw; EvLower method] ->
      exists v, as_vector raw = inr v).
Proof.
  intros run. subst run.
  destruct (as_vector raw) as [e | v] eqn:Hv.
  - rewrite run_unconvertible with (e := e) by assumption.
    split; [reflexivity |]. split; [reflexivity |]. discriminate.
  - destruct (run_cases as_vector signal_filter mne raw rate method v Hv);
      (split; [eexists; reflexivity |]); (split; [reflexivity |]); eauto.
Qed.

End Sanitize.

(** A table with a valid selector: the failure is the conversion's. *)
Lemma sanitize_before_dispatch_witness :
  eog_clean Demo.as_vector Demo.signal_filter (Some Demo.mne)
    Demo.table (Int 1000) "agarwal2019"
  = (Raised Demo.not_a_vector, [EvAsVector Demo.table]).
Proof.
  exact (proj1 (sanitize_before_dispatch Demo.as_vector Demo.signal_filter
                  (Some Demo.mne) Demo.table (Int 1000) "agarwal2019")).
Defined.

(** ** The text of the dependency error *)

Section DependencyText.

Context {Raw : Type} (as_vector : Raw -> exn + vector)
        (signal_filter : signal_filter_args -> exn + vector).

(** C10.  Without the package, [_eog_clean_mne] raises an [ImportError]
    whose [args] are two strings.  The first blames [signal_filter()] and
    names the 'mne' module, the second gives the install command; neither
    mentions [eog_clean].  [eog_clean] passes that exception on unchanged
    whenever the input converts. *)
Theorem mne_error_text (raw : Raw) (v : vector) (rate : number) :
  result (@_eog_clean_mne Raw None v rate) = Raised mne_missing_error
  /\ exn_kind mne_missing_error = ImportError
  /\ (exists first second,
        exn_args mne_missing_error = [first; second]
        /\ Str.contains "signal_filter()" first = true
        /\ Str.contains "'mne'" first = true
        /\ Str.contains "pip install mne" second = true
        /\ Str.contains "eog_clean" first = false
        /\ Str.contains "eog_clean" second = false)
  /\ match as_vector raw with
     | inl _ => True
     | inr _ =>
         result (eog_clean as_vector signal_filter None raw rate "mne")
         = Raised mne_missing_error
     end.
Proof.
  split; [reflexivity |]. split; [reflexivity |].
  split; [do 2 eexists; repeat split; reflexivity |].
  destruct (as_vector raw) as [e | v'] eqn:Hv; [exact I |].
  now rewrite run_mne_absent with (v := v').
Qed.

End DependencyText.

(** ** Where filter calls, values and exceptions come from *)

Section Provenance.

Context {Raw : Type} (as_vector : Raw -> exn + vector)
        (signal_filter : signal_filter_args -> exn + vector)
        (mne : option mne_module).

(** X1.  Whatever the input, the method and the collaborators, a call of
    [signal_filter] made by [eog_clean] is the agarwal2019 one: the input
    converted to some [v], the method lowers to [agarwal] or
    [agarwal2019], and the arguments are [v], the caller's sampling rate,
    butterworth, order 4, no low cutoff, high cutoff 10. *)
Theorem signal_filter_calls_are_agarwal (raw : Raw) (rate : number)
        (method : string) (a : signal_filter_args) :
  In (EvSignalFilter a)
     (trace (eog_clean as_vector signal_filter mne raw rate method)) ->
  exists v,
    as_vector raw = inr v
    /\ (Str.lower method = "agarwal" \/ Str.lower method = "agarwal2019")
    /\ a = SignalFilterArgs v rate "butterworth" 4 None (Some (Int 10)).
Proof.
  destruct (as_vector raw) as [e | v] eqn:Hv.
  - rewrite run_unconvertible with (e := e) by assumption.
    intros [Hin | []]. discriminate Hin.
  - destruct (run_cases as_vector signal_filter mne raw rate method v Hv)
      as [Ha | m Hm Hp | Hm Hp | Hr];
      cbn; intros Hin;
      repeat (destruct Hin as [Hin | Hin]; try discriminate Hin);
      try contradiction.
    exists v. apply member_agarwal_iff in Ha.
    inversion Hin; subst a. auto.
Qed.

(** X2.  Likewise a call of [mne.filter.filter_data] made by [eog_clean]
    only happens when the input converted to some [v], the method lowers
    to [mne] and the package is installed, and always carries the one
    hard-wired configuration. *)
Theorem filter_data_calls_are_mne (raw : Raw) (rate : number)
        (method : string) (a : filter_data_args) :
  In (EvFilterData a)
     (trace (eog_clean as_vector signal_filter mne raw rate method)) ->
  exists v m,
    as_vector raw = inr v
    /\ mne = Some m
    /\ Str.lower method = "mne"
    /\ a = FilterDataArgs v rate (Int 1) (Int 10) "10s"
             (Float (1 # 2)) (Float (1 # 2))
             "zero-double" "hann" "firwin2" false.
Proof.
  destruct (as_vector raw) as [e | v] eqn:Hv.
  - rewrite run_unconvertible with (e := e) by assumption.
    intros [Hin | []]. discriminate Hin.
  - destruct (run_cases as_vector signal_filter mne raw rate method v Hv)
      as [Ha | m Hm Hp | Hm Hp | Hr];
      cbn; intros Hin;
      repeat (destruct Hin as [Hin | Hin]; try discriminate Hin);
      try contradiction.
    exists v, m. inversion Hin; subst a. auto.
Qed.

(** X3.  Every call of [eog_clean] converts its input exactly once and
    then lowers the method, enters a preset, checks for the package and
    calls a filter at most once each. *)
Theorem call_budget (raw : Raw) (rate : number) (method : string) :
  let t := trace (eog_clean as_vector signal_filter mne raw rate method) in
  occurrences is_as_vector t = 1%nat
  /\ (occurrences is_lower t <= 1)%nat
  /\ (occurrences is_preset_entry t <= 1)%nat
  /\ (occurrences is_mne_import t <= 1)%nat
  /\ (filter_calls t <= 1)%nat.
Proof.
  cbv zeta.
  destruct (as_vector raw) as [e | v] eqn:Hv.
  - rewrite run_unconvertible with (e := e) by assumption.
    cbn. repeat split; lia.
  - destruct (run_cases as_vector signal_filter mne raw rate method v Hv);
      cbn; repeat split; lia.
Qed.

(** X4.  A vector returned by [eog_clean] is what a filter primitive
    returned on the converted input: the input is never handed back
    unfiltered and no preset stands in for another. *)
Theorem returned_value_is_filter_output (raw : Raw) (rate : number)
        (method : string) (out : vector) :
  result (eog_clean as_vector signal_filter mne raw rate method)
  = Returned out ->
  exists v,
    as_vector raw = inr v
    /\ (((Str.lower method = "agarwal" \/ Str.lower method = "agarwal2019")
         /\ signal_filter
              (SignalFilterArgs v rate "butterworth" 4 None (Some (Int 10)))
            = inr out)
        \/ (exists m,
              Str.lower method = "mne" /\ mne = Some m
              /\ filter_data m
                   (FilterDataArgs v rate (Int 1) (Int 10) "10s"
                      (Float (1 # 2)) (Float (1 # 2))
                      "zero-double" "hann" "firwin2" false)
                 = inr out)).
Proof.
  destruct (as_vector raw) as [e | v] eqn:Hv.
  - rewrite run_unconvertible with (e := e) by assumption. discriminate.
  - destruct (run_cases as_vector signal_filter mne raw rate method v Hv)
      as [Ha | m Hm Hp | Hm Hp | Hr]; cbn; intros Hres;
      try discriminate Hres; exists v; (split; [reflexivity |]).
    + left. apply member_agarwal_iff in Ha. split; [tauto |].
      fold (agarwal2019_args v rate).
      destruct (signal_filter (agarwal2019_args v rate)); cbn in Hres;
        congruence.
    + right. exists m. repeat split; trivial.
      fold (mne_args v rate).
      destruct (filter_data m (mne_args v rate)); cbn in Hres; congruence.
Qed.


End Provenance.

Lemma signal_filter_calls_are_agarwal_witness :
  exists v,
    Demo.as_vector Demo.ramp = inr v
    /\ (Str.lower "AGARWAL" = "agarwal" \/ Str.lower "AGARWAL" = "agarwal2019")
    /\ agarwal2019_args [1%Q; 2%Q; 3%Q] (Float (250 # 1))
       = SignalFilterArgs v (Float (250 # 1)) "butterworth" 4 None
           (Some (Int 10)).
Proof.
  apply (signal_filter_calls_are_agarwal Demo.as_vector Demo.signal_filter
           None Demo.ramp (Float (250 # 1)) "AGARWAL"
           (agarwal2019_args [1%Q; 2%Q; 3%Q] (Float (250 # 1)))).
  do 3 right. left. reflexivity.
Defined.

Lemma filter_data_calls_are_mne_witness :
  exists v m,
    Demo.as_vector Demo.ramp = inr v
    /\ Some Demo.mne = Some m
    /\ Str.lower "mne" = "mne"
    /\ mne_args [1%Q; 2%Q; 3%Q] (Int 100)
       = FilterDataArgs v (Int 100) (Int 1) (Int 10) "10s"
           (Float (1 # 2)) (Float (1 # 2))
           "zero-double" "hann" "firwin2" false.
Proof.
  apply (filter_data_calls_are_mne Demo.as_vector Demo.signal_filter
           (Some Demo.mne) Demo.ramp (Int 100) "mne"
           (mne_args [1%Q; 2%Q; 3%Q] (Int 100))).
  do 4 right. left. reflexivity.
Defined.

Lemma returned_value_is_filter_output_witness :
  result (eog_clean Demo.as_vector Demo.signal_filter None Demo.ramp
            (Int 100) "agarwal") = Returned [1%Q; 2%Q; 3%Q]
  /\ exists v,
       Demo.as_vector Demo.ramp = inr v
       /\ (((Str.lower "agarwal" = "agarwal"
             \/ Str.lower "agarwal" = "agarwal2019")
            /\ Demo.signal_filter
                 (SignalFilterArgs v (Int 100) "butterworth" 4 None
                    (Some (Int 10)))
               = inr [1%Q; 2%Q; 3%Q])
           \/ (exists m,
                 Str.lower "agarwal" = "mne" /\ None = Some m
                 /\ filter_data m
                      (FilterDataArgs v (Int 100) (Int 1) (Int 10) "10s"
                         (Float (1 # 2)) (Float (1 # 2))
                         "zero-double" "hann" "firwin2" false)
                    = inr [1%Q; 2%Q; 3%Q])).
Proof.
  split; [reflexivity |].
  apply (returned_value_is_filter_output Demo.as_vector Demo.signal_filter
           None Demo.ramp (Int 100) "agarwal" [1%Q; 2%Q; 3%Q]).
  reflexivity.
Defined.


(** ** Scope of the [try] in the mne preset *)

Section TryScope.

Context {Raw : Type}.

(** X6.  The [try] of [_eog_clean_mne] covers the [import] only.  With
    the package installed, whatever [filter_data] raises, an
    [ImportError] included, leaves the function as it is and is not
    replaced by the install message; exactly one filter call is made. *)
Theorem filter_error_not_rewritten (m : mne_module) (v : vector)
        (rate : number) (e : exn) :
  filter_data m
    (FilterDataArgs v rate (Int 1) (Int 10) "10s"
       (Float (1 # 2)) (Float (1 # 2)) "zero-double" "hann" "firwin2" false)
  = inl e ->
  @_eog_clean_mne Raw (Some m) v rate
  = (Raised e,
     [EvEnter F_eog_clean_mne; EvImport "mne";
      EvFilterData
        (FilterDataArgs v rate (Int 1) (Int 10) "10s"
           (Float (1 # 2)) (Float (1 # 2))
           "zero-double" "hann" "firwin2" false)]).
Proof.
  intros He. unfold _eog_clean_mne, import_mne. step_monad.
  fold (mne_args v rate) in He. rewrite He. reflexivity.
Qed.

End TryScope.

Lemma filter_error_not_rewritten_witness :
  is_ImportError Faulty.late_import_error = true
  /\ result (@_eog_clean_mne Demo.raw_input (Some Faulty.mne)
               [1%Q; 2%Q; 3%Q] (Int 100))
     = Raised Faulty.late_import_error
  /\ Faulty.late_import_error <> mne_missing_error.
Proof.
  split; [reflexivity |]. split; [| discriminate].
  exact (f_equal fst
           (filter_error_not_rewritten (Raw := Demo.raw_input) Faulty.mne
              [1%Q; 2%Q; 3%Q] (Int 100) Faulty.late_import_error eq_refl)).
Defined.

(** ** What a call does not depend on *)

Section Independence.

Context {Raw : Type} (as_vector : Raw -> exn + vector).

(** X7.  Unless the method lowers to [mne], the whole run (outcome and
    calls) is the same whether or not the package is installed, and
    whatever its filter would do: the default call never needs it. *)
Theorem independent_of_mne
        (signal_filter : signal_filter_args -> exn + vector)
        (mne mne' : option mne_module)
        (raw : Raw) (rate : number) (method : string) :
  Str.lower method <> "mne" ->
  eog_clean as_vector signal_filter mne raw rate method
  = eog_clean as_vector signal_filter mne' raw rate method.
Proof.
  intros Hm.
  destruct (as_vector raw) as [e | v] eqn:Hv.
  - now rewrite !run_unconvertible with (e := e).
  - destruct (recognized (Str.lower method)) eqn:Hr.
    + rewrite recognized_split in Hr. apply orb_true_iff in Hr.
      destruct Hr as [Ha | Hb].
      * now rewrite !run_agarwal with (v := v).
      * apply member_mne_iff in Hb. contradiction.
    + now rewrite !run_unrecognized with (v := v).
Qed.

(** X8.  Unless the method lowers to [agarwal] or [agarwal2019], the
    whole run is the same whatever [signal_filter] does. *)
Theorem independent_of_signal_filter
        (signal_filter signal_filter' : signal_filter_args -> exn + vector)
        (mne : option mne_module)
        (raw : Raw) (rate : number) (method : string) :
  Str.lower method <> "agarwal" ->
  Str.lower method <> "agarwal2019" ->
  eog_clean as_vector signal_filter mne raw rate method
  = eog_clean as_vector signal_filter' mne raw rate method.
Proof.
  intros H1 H2.
  destruct (as_vector raw) as [e | v] eqn:Hv.
  - now rewrite !run_unconvertible with (e := e).
  - destruct (recognized (Str.lower method)) eqn:Hr.
    + rewrite recognized_split in Hr. apply orb_true_iff in Hr.
      destruct Hr as [Ha | Hb].
      * apply member_agarwal_iff in Ha. tauto.
      * apply member_mne_iff in Hb. destruct mne as [m |].
        -- now rewrite !run_mne_present with (v := v) (m := m).
        -- now rewrite !run_mne_absent with (v := v).
    + now rewrite !run_unrecognized with (v := v).
Qed.

(** X9.  The two spellings of the first preset are interchangeable: two
    methods that both lower to [agarwal] or [agarwal2019] give the same
    outcome and the same calls, the logged method string apart. *)
Theorem agarwal_aliases_agree
        (signal_filter : signal_filter_args -> exn + vector)
        (mne : option mne_module)
        (raw : Raw) (rate : number) (m1 m2 : string) :
  Str.lower m1 = "agarwal" \/ Str.lower m1 = "agarwal2019" ->
  Str.lower m2 = "agarwal" \/ Str.lower m2 = "agarwal2019" ->
  result (eog_clean as_vector signal_filter mne raw rate m1)
  = result (eog_clean as_vector signal_filter mne raw rate m2)
  /\ filter (fun ev => negb (is_lower ev))
       (trace (eog_clean as_vector signal_filter mne raw rate m1))
     = filter (fun ev => negb (is_lower ev))
         (trace (eog_clean as_vector signal_filter mne raw rate m2)).
Proof.
  intros H1 H2.
  apply member_agarwal_iff in H1. apply member_agarwal_iff in H2.
  destruct (as_vector raw) as [e | v] eqn:Hv.
  - rewrite !run_unconvertible with (e := e) by assumption.
    split; reflexivity.
  - rewrite !run_agarwal with (v := v) by assumption.
    split; reflexivity.
Qed.

End Independence.

Lemma independent_of_mne_witness :
  Str.lower default_method <> "mne"
  /\ eog_clean Demo.as_vector Demo.signal_filter None Demo.ramp
       default_sampling_rate default_method
     = eog_clean Demo.as_vector Demo.signal_filter (Some Faulty.mne)
         Demo.ramp default_sampling_rate default_method.
Proof.
  assert (H : Str.lower default_method <> "mne") by discriminate.
  split; [exact H |].
  exact (independent_of_mne Demo.as_vector Demo.signal_filter None
           (Some Faulty.mne) Demo.ramp default_sampling_rate default_method
           H).
Defined.

Lemma independent_of_signal_filter_witness :
  eog_clean Demo.as_vector Demo.signal_filter (Some Demo.mne) Demo.ramp
    (Int 100) "MNE"
  = eog_clean Demo.as_vector Faulty.signal_filter (Some Demo.mne) Demo.ramp
      (Int 100) "MNE".
Proof.
  apply (independent_of_signal_filter Demo.as_vector Demo.signal_filter
           Faulty.signal_filter (Some Demo.mne) Demo.ramp (Int 100) "MNE");
    discriminate.
Defined.

Lemma agarwal_aliases_agree_witness :
  result (eog_clean Demo.as_vector Demo.signal_filter None Demo.ramp
            (Int 100) "Agarwal")
  = result (eog_clean Demo.as_vector Demo.signal_filter None Demo.ramp
              (Int 100) "AGARWAL2019").
Proof.
  apply (agarwal_aliases_agree Demo.as_vector Demo.signal_filter None
           Demo.ramp (Int 100) "Agarwal" "AGARWAL2019");
    [left | right]; reflexivity.
Defined.

(** ** The selector is not trimmed *)

Lemma lower_length (s : string) :
  String.length (Str.lower s) = String.length s.
Proof.
  induction s as [| c s IH]; simpl; congruence.
Qed.

Lemma recognized_length (s : string) :
  recognized s = true ->
  String.length s = 3%nat \/ String.length s = 7%nat
  \/ String.length s = 11%nat.
Proof.
  rewrite recognized_split, orb_true_iff, member_agarwal_iff, member_mne_iff.
  intros [[-> | ->] | ->]; cbn; auto.
Qed.

Section Trimming.

Context {Raw : Type} (as_vector : Raw -> exn + vector)
        (signal_filter : signal_filter_args -> exn + vector)
        (mne : option mne_module).

(** X10.  [eog_clean] compares the lowered string as it stands.  A string
    one character longer than an accepted selector (a selector with a
    blank or a newline before, after or inside it) is never accepted: on an
    input that converts, the call ends at the method error and no preset
    runs. *)
Theorem one_extra_character_rejected (raw : Raw) (v : vector)
        (rate : number) (method padded : string) :
  as_vector raw = inr v ->
  recognized (Str.lower method) = true ->
  String.length padded = S (String.length method) ->
  eog_clean as_vector signal_filter mne raw rate padded
  = (Raised method_error, [EvAsVector raw; EvLower padded]).
Proof.
  intros Hv Hr Hlen.
  apply run_unrecognized with (v := v); [assumption |].
  destruct (recognized (Str.lower padded)) eqn:Hp; [exfalso | reflexivity].
  apply recognized_length in Hr. apply recognized_length in Hp.
  rewrite lower_length in Hr, Hp. lia.
Qed.

End Trimming.

Lemma one_extra_character_rejected_witness :
  Demo.as_vector Demo.ramp = inr [1%Q; 2%Q; 3%Q]
  /\ recognized (Str.lower "mne") = true
  /\ String.length "mne " = S (String.length "mne")
  /\ eog_clean Demo.as_vector Demo.signal_filter (Some Demo.mne) Demo.ramp
       (Int 100) "mne "
     = (Raised method_error, [EvAsVector Demo.ramp; EvLower "mne "]).
Proof.
  repeat (split; [reflexivity |]).
  exact (one_extra_character_rejected Demo.as_vector Demo.signal_filter
           (Some Demo.mne) Demo.ramp [1%Q; 2%Q; 3%Q] (Int 100) "mne" "mne "
           eq_refl eq_refl eq_refl).
Defined.

(** ** The presets called directly *)

Section DirectCalls.

Context {Raw : Type}
        (signal_filter : signal_filter_args -> exn + vector)
        (mne : option mne_module).

(** X11.  Called directly, the three presets take the vector as it is:
    none converts the input or lowers anything, each makes at most one
    filter call, and only [_eog_clean_mne] looks for the package.
    [_eog_clean_brainstorm] makes exactly one [signal_filter] call, with
    butterworth, order 4, low cutoff 1.5 and high cutoff 15 on the vector
    and rate it was given, and hands on its value or exception. *)
Theorem presets_called_directly (v : vector) (rate : number) :
  let a := SignalFilterArgs v rate "butterworth" 4
             (Some (Float (3 # 2))) (Some (Int 15)) in
  @_eog_clean_brainstorm Raw signal_filter v rate
  = (of_sum (signal_filter a), [EvEnter F_eog_clean_brainstorm;
                                EvSignalFilter a])
  /\ Forall (fun t : list (event Raw) =>
               occurrences is_as_vector t = 0%nat
               /\ occurrences is_lower t = 0%nat
               /\ (filter_calls t <= 1)%nat)
       [trace (_eog_clean_agarwal2019 signal_filter v rate);
        trace (_eog_clean_brainstorm signal_filter v rate);
        trace (_eog_clean_mne mne v rate)]
  /\ occurrences is_mne_import
       (trace (@_eog_clean_agarwal2019 Raw signal_filter v rate)) = 0%nat
  /\ occurrences is_mne_import
       (trace (@_eog_clean_brainstorm Raw signal_filter v rate)) = 0%nat
  /\ occurrences is_mne_import (trace (@_eog_clean_mne Raw mne v rate))
     = 1%nat.
Proof.
  cbv zeta.
  assert (Hmne : exists r t,
            @_eog_clean_mne Raw mne v rate
            = (r, EvEnter F_eog_clean_mne :: EvImport "mne" :: t)
            /\ (t = [] \/ t = [EvFilterData (mne_args v rate)])).
  { unfold _eog_clean_mne, import_mne. step_monad.
    destruct mne as [m |]; cbn.
    - destruct (filter_data m (mne_args v rate));
        do 2 eexists; (split; [reflexivity | right; reflexivity]).
    - do 2 eexists. split; [reflexivity | left; reflexivity]. }
  destruct Hmne as (r & t & Hrun & Ht).
  rewrite Hrun.
  split; [reflexivity |].
  split; [| destruct Ht; subst t; repeat split; reflexivity].
  apply Forall_cons; [| apply Forall_cons; [| apply Forall_cons;
                                               [| apply Forall_nil]]];
    destruct Ht; subst t; cbn; repeat split; lia.
Qed.

End DirectCalls.
